(** * cdk-serverless-lamp: the constructs of [src/index.ts]

    The library declares cloud resources by calling the constructors of the
    AWS CDK.  A construct's behaviour is the sequence of declarations its
    constructor hands to the CDK, so the embedding is a state monad over that
    sequence: every [new X(scope, id, props)] of the source appends one
    declaration that keeps the properties exactly as the source passes them,
    and every mutating call ([addToPolicy], [addToRolePolicy],
    [allowInternally], [node.addDependency]) appends the edge it asks for.
    What the CDK later derives from a declaration (defaults of its own,
    generated CloudFormation) is outside the library and outside the model. *)

From stdpp Require Import base strings pretty gmap list.

(** ** JavaScript operators, on optional values as [option] *)

Module JS.

(** [x ?? d], the right operand always defined. *)
Definition nullish {A : Type} (x : option A) (d : A) : A :=
  match x with Some v => v | None => d end.

(** [x ?? y], the right operand possibly undefined itself. *)
Definition nullish_or {A : Type} (x y : option A) : option A :=
  match x with Some v => Some v | None => y end.

(** [x?.f] for a required field [f]. *)
Definition chain {A B : Type} (x : option A) (f : A -> B) : option B :=
  match x with Some v => Some (f v) | None => None end.

(** [x?.f] for an optional field [f]. *)
Definition chain_opt {A B : Type} (x : option A) (f : A -> option B) : option B :=
  match x with Some v => f v | None => None end.

(** [!x] for [x : boolean | undefined]: undefined is falsy. *)
Definition not (x : option bool) : bool :=
  match x with Some true => false | Some false => true | None => true end.

(** [x === b] for [x : boolean | undefined] and a boolean literal [b]. *)
Definition strict_eq (x : option bool) (b : bool) : bool :=
  match x with Some v => Bool.eqb v b | None => false end.

(** The JSON text of a flat object, kept as its key/value pairs. *)
Inductive Json := stringify (fields : list (string * string)).

End JS.

Notation "x ?? d" := (JS.nullish x d) (at level 40, left associativity).

(** ** The parts of the AWS CDK the source uses: values and properties *)

Module cdk.

(** A construct as a scope: its path in the tree and the name of the stack
    it belongs to ([cdk.Stack.of(this).stackName]). *)
Record Construct := { stackName : string; path : string }.

(** [super(scope, id)]: the new construct is the child [id] of [scope]. *)
Definition child (scope : Construct) (id : string) : Construct :=
  {| stackName := stackName scope; path := path scope +:+ "/" +:+ id |}.

(** A string known only at deployment: an attribute of a declared object,
    or a plain literal. *)
Inductive Token :=
| Literal (s : string)
| Attribute (owner : string) (attribute : string).

Inductive Duration := seconds (n : nat).

Inductive RemovalPolicy := DESTROY | RETAIN | SNAPSHOT.

(** Classes of the low-level children a construct owns, as far as
    [instanceof] is asked about them. *)
Inductive Class := CfnDBSubnetGroup | CfnDBCluster | CfnDBInstance.

Record IConstruct := { node_path : string; class : Class }.

Definition instanceof (c : IConstruct) (k : Class) : bool :=
  match class c, k with
  | CfnDBSubnetGroup, CfnDBSubnetGroup => true
  | CfnDBCluster, CfnDBCluster => true
  | CfnDBInstance, CfnDBInstance => true
  | _, _ => false
  end.

End cdk.

Module ec2.

Inductive IVpc := VpcRef (path : string).
Inductive ISecurityGroup := SecurityGroupRef (path : string).
Inductive InstanceType := mkInstanceType (instanceTypeIdentifier : string).
Inductive Port := tcp (port : nat).

Module VpcProps.
Record t := { maxAzs : nat; natGateways : nat }.
End VpcProps.

Module SecurityGroupProps.
Record t := { vpc : IVpc }.
End SecurityGroupProps.

End ec2.

Module iam.

Inductive IRole := RoleRef (path : string).

Inductive IPrincipal :=
| ServicePrincipal (service : string)
| AccountPrincipal (accountId : string)
| AnyPrincipal.

Module PolicyStatement.
Record t := { actions : list string; resources : list cdk.Token }.
End PolicyStatement.

Module RoleProps.
Record t := { assumedBy : IPrincipal }.
End RoleProps.

End iam.

Module secretsmanager.

Inductive ISecret := SecretRef (path : string).

Definition secretArn (s : ISecret) : cdk.Token :=
  match s with SecretRef p => cdk.Attribute p "secretArn" end.

(** [secret.secretValueFromJson(key)]; [toString()] renders it as a token
    and keeps the reference. *)
Inductive SecretValue := secretValueFromJson (s : ISecret) (key : string).

Module SecretStringGenerator.
Record t := {
  secretStringTemplate : JS.Json;
  passwordLength : nat;
  excludePunctuation : bool;
  includeSpace : bool;
  generateStringKey : string
}.
End SecretStringGenerator.

Module SecretProps.
Record t := {
  secretName : string;
  generateSecretString : SecretStringGenerator.t
}.
End SecretProps.

(** The punctuation characters of the service's random-password generator:
    the printable ASCII characters that are neither a letter, a digit nor
    the space. *)
Definition is_punctuation (c : Ascii.ascii) : bool :=
  let n := Ascii.nat_of_ascii c in
  ((33 <=? n) && (n <=? 47)) || ((58 <=? n) && (n <=? 64))
  || ((91 <=? n) && (n <=? 96)) || ((123 <=? n) && (n <=? 126)).

Definition is_space (c : Ascii.ascii) : bool := Ascii.nat_of_ascii c =? 32.

Fixpoint all_chars (p : Ascii.ascii -> bool) (s : string) : bool :=
  match s with
  | EmptyString => true
  | String c s' => p c && all_chars p s'
  end.

(** The passwords the service may store under [generateStringKey] for a
    generator: of the requested length, and free of the classes the
    generator excludes. *)
Definition may_generate (g : SecretStringGenerator.t) (password : string) : bool :=
  (String.length password =? SecretStringGenerator.passwordLength g)
  && (if SecretStringGenerator.excludePunctuation g
      then all_chars (fun c => negb (is_punctuation c)) password else true)
  && (if SecretStringGenerator.includeSpace g
      then true else all_chars (fun c => negb (is_space c)) password).

End secretsmanager.

Module lambda.

Inductive IFunction := FunctionRef (path : string).
Inductive Runtime := PROVIDED.
Inductive Code := fromAsset (path : string).

(** [LayerVersion.fromLayerVersionArn(scope, id, arn)]: a reference to an
    existing layer, no resource of its own. *)
Inductive ILayerVersion := fromLayerVersionArn (scope : cdk.Construct) (id : string) (arn : string).

Module FunctionProps.
Record t := {
  runtime : Runtime;
  handler : string;
  layers : list ILayerVersion;
  code : Code;
  environment : gmap string string;
  timeout : cdk.Duration;
  vpc : ec2.IVpc
}.
End FunctionProps.

End lambda.

Module apigateway.

Inductive IHttpApi := HttpApiRef (path : string).

Definition url (a : IHttpApi) : cdk.Token :=
  match a with HttpApiRef p => cdk.Attribute p "url" end.

Inductive LambdaProxyIntegration := mkLambdaProxyIntegration (handler : lambda.IFunction).

Module HttpApiProps.
Record t := { defaultIntegration : LambdaProxyIntegration }.
End HttpApiProps.

End apigateway.

Module rds.

Inductive AuroraMysqlEngineVersion := VER_2_08_1.

Inductive IClusterEngine :=
| AURORA
| AURORA_MYSQL
| AURORA_POSTGRESQL
| auroraMysql (version : AuroraMysqlEngineVersion).

Inductive IInstanceEngine := MYSQL | MARIADB | POSTGRES.

Inductive IDatabaseInstance := DatabaseInstanceRef (path : string).

(** A proxy as the library's callers hold it. *)
Record IDatabaseProxy := {
  dbProxyName : string;
  dbProxyArn : cdk.Token;
  endpoint : cdk.Token
}.

(** A cluster as the library holds it after construction:
    [node.children] lists the low-level children the CDK gave it. *)
Record IDatabaseCluster := {
  cluster_path : string;
  node_children : list cdk.IConstruct
}.

Module DatabaseInstanceProps.
Record t := {
  engine : IInstanceEngine;
  masterUsername : secretsmanager.SecretValue;
  masterUserPassword : secretsmanager.SecretValue;
  vpc : ec2.IVpc;
  securityGroups : list ec2.ISecurityGroup;
  instanceType : option ec2.InstanceType;
  deletionProtection : bool
}.
End DatabaseInstanceProps.

Module InstanceProps.
Record t := {
  vpc : ec2.IVpc;
  instanceType : ec2.InstanceType;
  securityGroups : list ec2.ISecurityGroup
}.
End InstanceProps.

Module Login.
Record t := {
  username : secretsmanager.SecretValue;
  password : secretsmanager.SecretValue
}.
End Login.

Module DatabaseClusterProps.
Record t := {
  engine : IClusterEngine;
  instanceProps : InstanceProps.t;
  masterUser : Login.t;
  instances : nat;
  removalPolicy : cdk.RemovalPolicy
}.
End DatabaseClusterProps.

Module DatabaseProxyOptions.
Record t := {
  vpc : ec2.IVpc;
  secrets : list secretsmanager.ISecret;
  iamAuth : bool;
  dbProxyName : string;
  securityGroups : list ec2.ISecurityGroup;
  role : iam.IRole
}.
End DatabaseProxyOptions.

(** What [addProxy] attaches the proxy to. *)
Inductive ProxyTarget :=
| fromCluster (cluster : string)
| fromInstance (instance : string).

(** The database instance class the service is asked for: the CDK prefixes
    the EC2 identifier with [db.]. *)
Definition databaseInstanceType (it : ec2.InstanceType) : string :=
  match it with ec2.mkInstanceType s => "db." +:+ s end.

(** The low-level children of a cluster built with [instances] members and a
    security group of the caller's: the subnet group, the cluster resource,
    then one [CfnDBInstance] per member, [Instance1] first. *)
Definition children_of_cluster (p : string) (instances : nat) : list cdk.IConstruct :=
  {| cdk.node_path := p +:+ "/Subnets"; cdk.class := cdk.CfnDBSubnetGroup |}
  :: {| cdk.node_path := p +:+ "/Resource"; cdk.class := cdk.CfnDBCluster |}
  :: map (fun i => {| cdk.node_path := p +:+ "/Instance" +:+ pretty (S i);
                      cdk.class := cdk.CfnDBInstance |})
         (seq 0 instances).

End rds.

(** ** Declarations, and the monad that collects them *)

Inductive Declaration :=
| NewVpc (path : string) (props : ec2.VpcProps.t)
| NewFunction (path : string) (props : lambda.FunctionProps.t)
| NewHttpApi (path : string) (props : apigateway.HttpApiProps.t)
| NewCfnOutput (path : string) (value : cdk.Token)
| NewSecret (path : string) (props : secretsmanager.SecretProps.t)
| NewSecurityGroup (path : string) (props : ec2.SecurityGroupProps.t)
| NewDatabaseInstance (path : string) (props : rds.DatabaseInstanceProps.t)
| NewDatabaseCluster (path : string) (props : rds.DatabaseClusterProps.t)
| NewRole (path : string) (props : iam.RoleProps.t)
| NewDatabaseProxy (path : string) (target : rds.ProxyTarget)
    (options : rds.DatabaseProxyOptions.t)
| AllowInternally (group : ec2.ISecurityGroup) (port : ec2.Port)
| AddToPolicy (role : iam.IRole) (statement : iam.PolicyStatement.t)
| AddToRolePolicy (fn : lambda.IFunction) (statement : iam.PolicyStatement.t)
| AddDependency (dependent : string) (on : option cdk.IConstruct).

Definition Synth (A : Type) : Type := list Declaration -> A * list Declaration.

#[global] Instance Synth_ret : MRet Synth := fun A x s => (x, s).

#[global] Instance Synth_bind : MBind Synth :=
  fun A B f m s => let '(a, s') := m s in f a s'.

Definition declare (d : Declaration) : Synth unit := fun s => (tt, s ++ [d]).

(** Run a constructor in an empty app: the object built and what it declared. *)
Definition synth {A : Type} (m : Synth A) : A * list Declaration := m [].

Definition declared {A : Type} (m : Synth A) : list Declaration := snd (synth m).

Definition built {A : Type} (m : Synth A) : A := fst (synth m).

(** ** The CDK calls of the source *)

Definition new_Vpc (scope : cdk.Construct) (id : string) (props : ec2.VpcProps.t)
  : Synth ec2.IVpc :=
  let p := cdk.path (cdk.child scope id) in
  _ ← declare (NewVpc p props); mret (ec2.VpcRef p).

Definition new_Function (scope : cdk.Construct) (id : string)
    (props : lambda.FunctionProps.t) : Synth lambda.IFunction :=
  let p := cdk.path (cdk.child scope id) in
  _ ← declare (NewFunction p props); mret (lambda.FunctionRef p).

Definition addToRolePolicy (fn : lambda.IFunction)
    (statement : iam.PolicyStatement.t) : Synth unit :=
  declare (AddToRolePolicy fn statement).

Definition new_HttpApi (scope : cdk.Construct) (id : string)
    (props : apigateway.HttpApiProps.t) : Synth apigateway.IHttpApi :=
  let p := cdk.path (cdk.child scope id) in
  _ ← declare (NewHttpApi p props); mret (apigateway.HttpApiRef p).

Definition new_CfnOutput (scope : cdk.Construct) (id : string)
    (value : cdk.Token) : Synth unit :=
  declare (NewCfnOutput (cdk.path (cdk.child scope id)) value).

Definition new_Secret (scope : cdk.Construct) (id : string)
    (props : secretsmanager.SecretProps.t) : Synth secretsmanager.ISecret :=
  let p := cdk.path (cdk.child scope id) in
  _ ← declare (NewSecret p props); mret (secretsmanager.SecretRef p).

Definition new_SecurityGroup (scope : cdk.Construct) (id : string)
    (props : ec2.SecurityGroupProps.t) : Synth ec2.ISecurityGroup :=
  let p := cdk.path (cdk.child scope id) in
  _ ← declare (NewSecurityGroup p props); mret (ec2.SecurityGroupRef p).

Definition allowInternally (group : ec2.ISecurityGroup) (port : ec2.Port)
  : Synth unit :=
  declare (AllowInternally group port).

Definition new_DatabaseInstance (scope : cdk.Construct) (id : string)
    (props : rds.DatabaseInstanceProps.t) : Synth rds.IDatabaseInstance :=
  let p := cdk.path (cdk.child scope id) in
  _ ← declare (NewDatabaseInstance p props); mret (rds.DatabaseInstanceRef p).

Definition new_DatabaseCluster (scope : cdk.Construct) (id : string)
    (props : rds.DatabaseClusterProps.t) : Synth rds.IDatabaseCluster :=
  let p := cdk.path (cdk.child scope id) in
  _ ← declare (NewDatabaseCluster p props);
  mret {| rds.cluster_path := p;
          rds.node_children :=
            rds.children_of_cluster p (rds.DatabaseClusterProps.instances props) |}.

Definition new_Role (scope : cdk.Construct) (id : string) (props : iam.RoleProps.t)
  : Synth iam.IRole :=
  let p := cdk.path (cdk.child scope id) in
  _ ← declare (NewRole p props); mret (iam.RoleRef p).

Definition addToPolicy (role : iam.IRole) (statement : iam.PolicyStatement.t)
  : Synth unit :=
  declare (AddToPolicy role statement).

(** The proxy object [addProxy] returns: its node and its attributes. *)
Record DatabaseProxy := { proxy_path : string; proxy : rds.IDatabaseProxy }.

Definition new_DatabaseProxy (p : string) (target : rds.ProxyTarget)
    (options : rds.DatabaseProxyOptions.t) : Synth DatabaseProxy :=
  _ ← declare (NewDatabaseProxy p target options);
  mret {| proxy_path := p;
          proxy := {| rds.dbProxyName := rds.DatabaseProxyOptions.dbProxyName options;
                      rds.dbProxyArn := cdk.Attribute p "dbProxyArn";
                      rds.endpoint := cdk.Attribute p "endpoint" |} |}.

(** [cluster.addProxy(id, options)]: a proxy under the cluster, targeting it. *)
Definition cluster_addProxy (c : rds.IDatabaseCluster) (id : string)
    (options : rds.DatabaseProxyOptions.t) : Synth DatabaseProxy :=
  new_DatabaseProxy (rds.cluster_path c +:+ "/" +:+ id)
    (rds.fromCluster (rds.cluster_path c)) options.

(** [instance.addProxy(id, options)]: a proxy under the instance, targeting it. *)
Definition instance_addProxy (i : rds.IDatabaseInstance) (id : string)
    (options : rds.DatabaseProxyOptions.t) : Synth DatabaseProxy :=
  match i with
  | rds.DatabaseInstanceRef p =>
      new_DatabaseProxy (p +:+ "/" +:+ id) (rds.fromInstance p) options
  end.

(** [x.node.addDependency(...deps)]: one edge per element of the spread, none
    for an empty array. *)
Fixpoint addDependency (dependent : string) (deps : list (option cdk.IConstruct))
  : Synth unit :=
  match deps with
  | [] => mret tt
  | d :: deps' =>
      _ ← declare (AddDependency dependent d); addDependency dependent deps'
  end.

(** ** The library: the interfaces of [src/index.ts] *)

Module DatabaseConfig.
Record t := {
  writerEndpoint : string;
  readerEndpoint : option string;
  masterUserName : option string;
  masterUserPasswordSecret : option secretsmanager.ISecret
}.
End DatabaseConfig.

Module ServerlessApiProps.
Record t := {
  handler : option lambda.IFunction;
  lambdaCodePath : option string;
  brefLayerVersion : string;
  vpc : option ec2.IVpc;
  databaseConfig : option DatabaseConfig.t;
  rdsProxy : option rds.IDatabaseProxy
}.
End ServerlessApiProps.

(** [ServerlessLaravelProps extends ServerlessApiProps]: the inherited fields
    and [laravelPath]. *)
Module ServerlessLaravelProps.
Record t := {
  handler : option lambda.IFunction;
  lambdaCodePath : option string;
  brefLayerVersion : string;
  vpc : option ec2.IVpc;
  databaseConfig : option DatabaseConfig.t;
  rdsProxy : option rds.IDatabaseProxy;
  laravelPath : string
}.
End ServerlessLaravelProps.

Module DatabaseProps.
Record t := {
  engine : option rds.IClusterEngine;
  masterUserName : option string;
  vpc : ec2.IVpc;
  instanceType : option ec2.InstanceType;
  rdsProxy : option bool;
  rdsProxyOptions : option rds.DatabaseProxyOptions.t;
  singleInstanceOnly : option bool
}.
End DatabaseProps.

(** ** [class ServerlessApi] *)

Module ServerlessApi.

Record t := { handler : lambda.IFunction; vpc : ec2.IVpc }.

Section constructor.

(** Node's [path.join] and the directory of the compiled module. *)
Variable path_join : string -> string -> string.
Variable __dirname : string.

Definition DEFAULT_LAMBDA_ASSET_PATH : string :=
  path_join __dirname "../composer/laravel58-bref".

Definition DEFAULT_DB_MASTER_USER : string := "admin".

(** The [environment] object of the function the construct creates. *)
Definition environment (databaseConfig : option DatabaseConfig.t) : gmap string string :=
  list_to_map [
    ("APP_STORAGE", "/tmp");
    ("DB_WRITER",
      JS.chain databaseConfig DatabaseConfig.writerEndpoint ?? EmptyString);
    ("DB_READER",
      JS.nullish_or (JS.chain_opt databaseConfig DatabaseConfig.readerEndpoint)
                    (JS.chain databaseConfig DatabaseConfig.writerEndpoint)
        ?? EmptyString);
    ("DB_USER",
      JS.chain_opt databaseConfig DatabaseConfig.masterUserName
        ?? DEFAULT_DB_MASTER_USER)
  ].

Definition constructor (scope : cdk.Construct) (id : string)
    (props : ServerlessApiProps.t) : Synth t :=
  let this := cdk.child scope id in
  this_vpc ←
    match ServerlessApiProps.vpc props with
    | Some v => mret v
    | None => new_Vpc this "Vpc" {| ec2.VpcProps.maxAzs := 3; ec2.VpcProps.natGateways := 1 |}
    end;
  this_handler ←
    match ServerlessApiProps.handler props with
    | Some h => mret h
    | None =>
        new_Function this "handler" {|
          lambda.FunctionProps.runtime := lambda.PROVIDED;
          lambda.FunctionProps.handler := "public/index.php";
          lambda.FunctionProps.layers := [
            lambda.fromLayerVersionArn this "BrefPHPLayer"
              (ServerlessApiProps.brefLayerVersion props) ];
          lambda.FunctionProps.code :=
            lambda.fromAsset
              (ServerlessApiProps.lambdaCodePath props ?? DEFAULT_LAMBDA_ASSET_PATH);
          lambda.FunctionProps.environment :=
            environment (ServerlessApiProps.databaseConfig props);
          lambda.FunctionProps.timeout := cdk.seconds 120;
          lambda.FunctionProps.vpc := this_vpc
        |}
    end;
  (* allow lambda execution role to connect to RDS proxy *)
  _ ←
    match ServerlessApiProps.rdsProxy props with
    | Some rdsProxy =>
        addToRolePolicy this_handler {|
          iam.PolicyStatement.actions := [ "rds-db:connect" ];
          iam.PolicyStatement.resources := [ rds.dbProxyArn rdsProxy ]
        |}
    | None => mret tt
    end;
  endpoint ←
    new_HttpApi this "apiservice" {|
      apigateway.HttpApiProps.defaultIntegration :=
        apigateway.mkLambdaProxyIntegration this_handler
    |};
  _ ← new_CfnOutput this "EndpointURL" (apigateway.url endpoint);
  mret {| handler := this_handler; vpc := this_vpc |}.

End constructor.

End ServerlessApi.

(** ** [class ServerlessLaravel extends ServerlessApi] *)

Module ServerlessLaravel.

Definition constructor (path_join : string -> string -> string) (__dirname : string)
    (scope : cdk.Construct) (id : string) (props : ServerlessLaravelProps.t)
  : Synth ServerlessApi.t :=
  ServerlessApi.constructor path_join __dirname scope id {|
    ServerlessApiProps.lambdaCodePath := Some (ServerlessLaravelProps.laravelPath props);
    ServerlessApiProps.brefLayerVersion := ServerlessLaravelProps.brefLayerVersion props;
    ServerlessApiProps.handler := ServerlessLaravelProps.handler props;
    ServerlessApiProps.vpc := ServerlessLaravelProps.vpc props;
    ServerlessApiProps.databaseConfig := ServerlessLaravelProps.databaseConfig props;
    ServerlessApiProps.rdsProxy := ServerlessLaravelProps.rdsProxy props
  |}.

End ServerlessLaravel.

(** ** [class DatabaseCluster] *)

Module DatabaseCluster.

Record t := {
  rdsProxy : option DatabaseProxy;
  masterUser : string;
  masterPassword : secretsmanager.ISecret;
  dbCluster : option rds.IDatabaseCluster;
  dbInstance : option rds.IDatabaseInstance;
  _runBefore : list (option cdk.IConstruct)
}.

Definition set_dbInstance (this : t) (i : rds.IDatabaseInstance) : t :=
  {| rdsProxy := rdsProxy this; masterUser := masterUser this;
     masterPassword := masterPassword this; dbCluster := dbCluster this;
     dbInstance := Some i; _runBefore := _runBefore this |}.

Definition set_dbCluster (this : t) (c : rds.IDatabaseCluster) : t :=
  {| rdsProxy := rdsProxy this; masterUser := masterUser this;
     masterPassword := masterPassword this; dbCluster := Some c;
     dbInstance := dbInstance this; _runBefore := _runBefore this |}.

(** [this._runBefore.push(x)]; [x] is undefined when [find] found nothing. *)
Definition push_runBefore (this : t) (x : option cdk.IConstruct) : t :=
  {| rdsProxy := rdsProxy this; masterUser := masterUser this;
     masterPassword := masterPassword this; dbCluster := dbCluster this;
     dbInstance := dbInstance this; _runBefore := _runBefore this ++ [x] |}.

Definition set_rdsProxy (this : t) (p : DatabaseProxy) : t :=
  {| rdsProxy := Some p; masterUser := masterUser this;
     masterPassword := masterPassword this; dbCluster := dbCluster this;
     dbInstance := dbInstance this; _runBefore := _runBefore this |}.

(** Lines 236-269: the single instance or the cluster. *)
Definition declare_database (self : cdk.Construct) (props : DatabaseProps.t)
    (masterUserSecret : secretsmanager.ISecret)
    (dbConnectionGroup : ec2.ISecurityGroup) (this : t) : Synth t :=
  if JS.strict_eq (DatabaseProps.singleInstanceOnly props) true then
    i ← new_DatabaseInstance self "DBInstance" {|
      rds.DatabaseInstanceProps.engine := rds.MYSQL;
      rds.DatabaseInstanceProps.masterUsername :=
        secretsmanager.secretValueFromJson masterUserSecret "username";
      rds.DatabaseInstanceProps.masterUserPassword :=
        secretsmanager.secretValueFromJson masterUserSecret "password";
      rds.DatabaseInstanceProps.vpc := DatabaseProps.vpc props;
      rds.DatabaseInstanceProps.securityGroups := [ dbConnectionGroup ];
      rds.DatabaseInstanceProps.instanceType := DatabaseProps.instanceType props;
      rds.DatabaseInstanceProps.deletionProtection := false
    |};
    mret (set_dbInstance this i)
  else
    c ← new_DatabaseCluster self "DBCluster" {|
      rds.DatabaseClusterProps.engine := rds.auroraMysql rds.VER_2_08_1;
      rds.DatabaseClusterProps.instanceProps := {|
        rds.InstanceProps.vpc := DatabaseProps.vpc props;
        rds.InstanceProps.instanceType :=
          DatabaseProps.instanceType props ?? ec2.mkInstanceType "t3.medium";
        rds.InstanceProps.securityGroups := [ dbConnectionGroup ]
      |};
      rds.DatabaseClusterProps.masterUser := {|
        rds.Login.username :=
          secretsmanager.secretValueFromJson masterUserSecret "username";
        rds.Login.password :=
          secretsmanager.secretValueFromJson masterUserSecret "password"
      |};
      rds.DatabaseClusterProps.instances := 1;
      rds.DatabaseClusterProps.removalPolicy := cdk.DESTROY
    |};
    let this := set_dbCluster this c in
    (* Workaround for bug where TargetGroupName is not set but required *)
    let cfnDbInstance :=
      List.find (fun child => cdk.instanceof child cdk.CfnDBInstance)
                (rds.node_children c) in
    mret (push_runBefore this cfnDbInstance).

(** Lines 271-307: the proxy, its role and its dependencies. *)
Definition declare_proxy (self : cdk.Construct) (props : DatabaseProps.t)
    (masterUserSecret : secretsmanager.ISecret)
    (dbConnectionGroup : ec2.ISecurityGroup) (this : t) : Synth t :=
  (* enable the RDS proxy by default *)
  if JS.strict_eq (Some (JS.not (DatabaseProps.rdsProxy props))) false then
    (* create iam role for RDS proxy *)
    rdsProxyRole ← new_Role self "RdsProxyRole" {|
      iam.RoleProps.assumedBy := iam.ServicePrincipal "rds.amazonaws.com"
    |};
    _ ← addToPolicy rdsProxyRole {|
      iam.PolicyStatement.actions := [
        "secretsmanager:GetResourcePolicy";
        "secretsmanager:GetSecretValue";
        "secretsmanager:DescribeSecret";
        "secretsmanager:ListSecretVersionIds" ];
      iam.PolicyStatement.resources := [ secretsmanager.secretArn masterUserSecret ]
    |};
    let proxyOptions := {|
      rds.DatabaseProxyOptions.vpc := DatabaseProps.vpc props;
      rds.DatabaseProxyOptions.secrets := [ masterUserSecret ];
      rds.DatabaseProxyOptions.iamAuth := true;
      rds.DatabaseProxyOptions.dbProxyName := cdk.stackName self +:+ "-RDSProxy";
      rds.DatabaseProxyOptions.securityGroups := [ dbConnectionGroup ];
      rds.DatabaseProxyOptions.role := rdsProxyRole
    |} in
    (* create the RDS proxy *)
    this ←
      match dbCluster this with
      | Some c => p ← cluster_addProxy c "RDSProxy" proxyOptions; mret (set_rdsProxy this p)
      | None => mret this
      end;
    this ←
      match dbInstance this with
      | Some i => p ← instance_addProxy i "RDSProxy" proxyOptions; mret (set_rdsProxy this p)
      | None => mret this
      end;
    (* ensure DB instance is ready before creating the proxy *)
    _ ←
      match rdsProxy this with
      | Some p => addDependency (proxy_path p) (_runBefore this)
      | None => mret tt
      end;
    mret this
  else mret this.

Definition constructor (scope : cdk.Construct) (id : string)
    (props : DatabaseProps.t) : Synth t :=
  let self := cdk.child scope id in
  let this_masterUser := DatabaseProps.masterUserName props ?? "admin" in
  (* generate and store password for masterUser in the secrets manager *)
  masterUserSecret ← new_Secret self "DbMasterSecret" {|
    secretsmanager.SecretProps.secretName := cdk.stackName self +:+ "-DbMasterSecret";
    secretsmanager.SecretProps.generateSecretString := {|
      secretsmanager.SecretStringGenerator.secretStringTemplate :=
        JS.stringify [ ("username", this_masterUser) ];
      secretsmanager.SecretStringGenerator.passwordLength := 12;
      secretsmanager.SecretStringGenerator.excludePunctuation := true;
      secretsmanager.SecretStringGenerator.includeSpace := false;
      secretsmanager.SecretStringGenerator.generateStringKey := "password"
    |}
  |};
  let this := {|
    rdsProxy := None; masterUser := this_masterUser;
    masterPassword := masterUserSecret;
    dbCluster := None; dbInstance := None; _runBefore := []
  |} in
  dbConnectionGroup ← new_SecurityGroup self "DB Secuirty Group" {|
    ec2.SecurityGroupProps.vpc := DatabaseProps.vpc props
  |};
  _ ← allowInternally dbConnectionGroup (ec2.tcp 3306);
  this ← declare_database self props masterUserSecret dbConnectionGroup this;
  declare_proxy self props masterUserSecret dbConnectionGroup this.

End DatabaseCluster.

(** ** Reading a list of declarations *)

Definition as_proxy (d : Declaration)
  : option (string * rds.ProxyTarget * rds.DatabaseProxyOptions.t) :=
  match d with NewDatabaseProxy p t o => Some (p, t, o) | _ => None end.

Definition as_instance (d : Declaration) : option (string * rds.DatabaseInstanceProps.t) :=
  match d with NewDatabaseInstance p props => Some (p, props) | _ => None end.

Definition as_cluster (d : Declaration) : option (string * rds.DatabaseClusterProps.t) :=
  match d with NewDatabaseCluster p props => Some (p, props) | _ => None end.

Definition as_secret (d : Declaration) : option (string * secretsmanager.SecretProps.t) :=
  match d with NewSecret p props => Some (p, props) | _ => None end.

Definition as_role (d : Declaration) : option (string * iam.RoleProps.t) :=
  match d with NewRole p props => Some (p, props) | _ => None end.

Definition as_function (d : Declaration) : option (string * lambda.FunctionProps.t) :=
  match d with NewFunction p props => Some (p, props) | _ => None end.

Definition proxies (ds : list Declaration) := omap as_proxy ds.
Definition standalone_instances (ds : list Declaration) := omap as_instance ds.
Definition clusters (ds : list Declaration) := omap as_cluster ds.
Definition secrets (ds : list Declaration) := omap as_secret ds.
Definition roles (ds : list Declaration) := omap as_role ds.
Definition functions (ds : list Declaration) := omap as_function ds.

(** The statements granted to a role, in the order they were added. *)
Definition statements_of (r : iam.IRole) (ds : list Declaration)
  : list iam.PolicyStatement.t :=
  omap (fun d =>
          match d with
          | AddToPolicy (iam.RoleRef q) s =>
              match r with iam.RoleRef p => if String.eqb p q then Some s else None end
          | _ => None
          end) ds.

(** The statements handed to a function's role through the function. *)
Definition role_statements_of (f : lambda.IFunction) (ds : list Declaration)
  : list iam.PolicyStatement.t :=
  omap (fun d =>
          match d with
          | AddToRolePolicy (lambda.FunctionRef q) s =>
              match f with lambda.FunctionRef p => if String.eqb p q then Some s else None end
          | _ => None
          end) ds.

(** The creation-order dependencies a node declares. *)
Definition dependencies_of (p : string) (ds : list Declaration)
  : list (option cdk.IConstruct) :=
  omap (fun d =>
          match d with
          | AddDependency q on => if String.eqb p q then Some on else None
          | _ => None
          end) ds.

(** The database object a proxy target names is among the declared ones. *)
Definition target_declared (t : rds.ProxyTarget) (ds : list Declaration) : bool :=
  match t with
  | rds.fromCluster p => existsb (String.eqb p) (clusters ds).*1
  | rds.fromInstance p => existsb (String.eqb p) (standalone_instances ds).*1
  end.

(** ** Further readings of a list of declarations *)

Definition as_vpc (d : Declaration) : option (string * ec2.VpcProps.t) :=
  match d with NewVpc p props => Some (p, props) | _ => None end.

Definition as_api (d : Declaration) : option (string * apigateway.HttpApiProps.t) :=
  match d with NewHttpApi p props => Some (p, props) | _ => None end.

Definition as_output (d : Declaration) : option (string * cdk.Token) :=
  match d with NewCfnOutput p v => Some (p, v) | _ => None end.

Definition as_security_group (d : Declaration)
  : option (string * ec2.SecurityGroupProps.t) :=
  match d with NewSecurityGroup p props => Some (p, props) | _ => None end.

Definition as_internal_rule (d : Declaration) : option (ec2.ISecurityGroup * ec2.Port) :=
  match d with AllowInternally g port => Some (g, port) | _ => None end.

Definition as_grant (d : Declaration)
  : option (lambda.IFunction * iam.PolicyStatement.t) :=
  match d with AddToRolePolicy f s => Some (f, s) | _ => None end.

Definition as_role_statement (d : Declaration)
  : option (iam.IRole * iam.PolicyStatement.t) :=
  match d with AddToPolicy r s => Some (r, s) | _ => None end.

Definition as_dependency (d : Declaration) : option (string * option cdk.IConstruct) :=
  match d with AddDependency p on => Some (p, on) | _ => None end.

Definition vpcs (ds : list Declaration) := omap as_vpc ds.
Definition apis (ds : list Declaration) := omap as_api ds.
Definition outputs (ds : list Declaration) := omap as_output ds.
Definition security_groups (ds : list Declaration) := omap as_security_group ds.
Definition internal_rules (ds : list Declaration) := omap as_internal_rule ds.
Definition grants (ds : list Declaration) := omap as_grant ds.
Definition role_statements (ds : list Declaration) := omap as_role_statement ds.
Definition dependencies (ds : list Declaration) := omap as_dependency ds.

(** The path of the construct a declaration creates; the mutating calls
    create none. *)
Definition created_path (d : Declaration) : option string :=
  match d with
  | NewVpc p _ | NewFunction p _ | NewHttpApi p _ | NewCfnOutput p _
  | NewSecret p _ | NewSecurityGroup p _ | NewDatabaseInstance p _
  | NewDatabaseCluster p _ | NewRole p _ | NewDatabaseProxy p _ _ => Some p
  | AllowInternally _ _ | AddToPolicy _ _ | AddToRolePolicy _ _
  | AddDependency _ _ => None
  end.

Definition created_paths (ds : list Declaration) : list string := omap created_path ds.

(** The keys of the environment object of lines 100-105. *)
Definition environment_keys : list string :=
  [ "APP_STORAGE"; "DB_WRITER"; "DB_READER"; "DB_USER" ].

(** Replace the [lambdaCodePath] a [ServerlessLaravelProps] inherits, and
    nothing else. *)
Definition with_inherited_lambdaCodePath (c : option string)
    (props : ServerlessLaravelProps.t) : ServerlessLaravelProps.t := {|
  ServerlessLaravelProps.handler := ServerlessLaravelProps.handler props;
  ServerlessLaravelProps.lambdaCodePath := c;
  ServerlessLaravelProps.brefLayerVersion := ServerlessLaravelProps.brefLayerVersion props;
  ServerlessLaravelProps.vpc := ServerlessLaravelProps.vpc props;
  ServerlessLaravelProps.databaseConfig := ServerlessLaravelProps.databaseConfig props;
  ServerlessLaravelProps.rdsProxy := ServerlessLaravelProps.rdsProxy props;
  ServerlessLaravelProps.laravelPath := ServerlessLaravelProps.laravelPath props
|}.

(** Replace [engine] and [rdsProxyOptions] of a [DatabaseProps], and nothing
    else. *)
Definition with_engine_and_proxy_options (e : option rds.IClusterEngine)
    (o : option rds.DatabaseProxyOptions.t) (props : DatabaseProps.t)
  : DatabaseProps.t := {|
  DatabaseProps.engine := e;
  DatabaseProps.masterUserName := DatabaseProps.masterUserName props;
  DatabaseProps.vpc := DatabaseProps.vpc props;
  DatabaseProps.instanceType := DatabaseProps.instanceType props;
  DatabaseProps.rdsProxy := DatabaseProps.rdsProxy props;
  DatabaseProps.rdsProxyOptions := o;
  DatabaseProps.singleInstanceOnly := DatabaseProps.singleInstanceOnly props
|}.

(** The network and security groups of every declared database object,
    standalone instances first. *)
Definition database_placement (ds : list Declaration)
  : list (ec2.IVpc * list ec2.ISecurityGroup) :=
  map (fun x => (rds.DatabaseInstanceProps.vpc x.2,
                 rds.DatabaseInstanceProps.securityGroups x.2))
      (standalone_instances ds)
  ++ map (fun x => (rds.InstanceProps.vpc (rds.DatabaseClusterProps.instanceProps x.2),
                    rds.InstanceProps.securityGroups
                      (rds.DatabaseClusterProps.instanceProps x.2)))
         (clusters ds).

(** The master user name and password of every declared database object. *)
Definition database_credentials (ds : list Declaration)
  : list (secretsmanager.SecretValue * secretsmanager.SecretValue) :=
  map (fun x => (rds.DatabaseInstanceProps.masterUsername x.2,
                 rds.DatabaseInstanceProps.masterUserPassword x.2))
      (standalone_instances ds)
  ++ map (fun x => (rds.Login.username (rds.DatabaseClusterProps.masterUser x.2),
                    rds.Login.password (rds.DatabaseClusterProps.masterUser x.2)))
         (clusters ds).

(** The instance type every declared database object is given, when it is
    given one. *)
Definition database_sizing (ds : list Declaration) : list (option ec2.InstanceType) :=
  map (fun x => rds.DatabaseInstanceProps.instanceType x.2) (standalone_instances ds)
  ++ map (fun x => Some (rds.InstanceProps.instanceType
                           (rds.DatabaseClusterProps.instanceProps x.2)))
         (clusters ds).

(** The construct nodes of the layers referenced by the declared functions:
    [fromLayerVersionArn(scope, id, arn)] adds the node [id] under [scope]. *)
Definition layer_paths (ds : list Declaration) : list string :=
  flat_map (fun f => map (fun l => match l with
                                   | lambda.fromLayerVersionArn scope id _ =>
                                       cdk.path (cdk.child scope id)
                                   end)
                         (lambda.FunctionProps.layers f.2))
           (functions ds).

(** [new DatabaseCluster(scope, id1, props1); new DatabaseCluster(scope, id2, props2)]. *)
Definition two_databases (scope : cdk.Construct) (id1 id2 : string)
    (props1 props2 : DatabaseProps.t) : Synth (DatabaseCluster.t * DatabaseCluster.t) :=
  a ← DatabaseCluster.constructor scope id1 props1;
  b ← DatabaseCluster.constructor scope id2 props2;
  mret (a, b).

(** Replace [rdsProxy] of a [ServerlessApiProps], and nothing else. *)
Definition with_rdsProxy (p : option rds.IDatabaseProxy) (props : ServerlessApiProps.t)
  : ServerlessApiProps.t := {|
  ServerlessApiProps.handler := ServerlessApiProps.handler props;
  ServerlessApiProps.lambdaCodePath := ServerlessApiProps.lambdaCodePath props;
  ServerlessApiProps.brefLayerVersion := ServerlessApiProps.brefLayerVersion props;
  ServerlessApiProps.vpc := ServerlessApiProps.vpc props;
  ServerlessApiProps.databaseConfig := ServerlessApiProps.databaseConfig props;
  ServerlessApiProps.rdsProxy := p
|}.

(** [const db = new DatabaseCluster(scope, dbId, dbProps);
     new ServerlessApi(scope, apiId, { ...apiProps, rdsProxy: db.rdsProxy })]. *)
Definition database_then_api (path_join : string -> string -> string) (dirname : string)
    (scope : cdk.Construct) (dbId apiId : string)
    (dbProps : DatabaseProps.t) (apiProps : ServerlessApiProps.t)
  : Synth (DatabaseCluster.t * ServerlessApi.t) :=
  db ← DatabaseCluster.constructor scope dbId dbProps;
  api ← ServerlessApi.constructor path_join dirname scope apiId
          (with_rdsProxy (proxy <$> DatabaseCluster.rdsProxy db) apiProps);
  mret (db, api).

(** ** Vocabulary of the statements *)

(** The ordering property in its general form: every declared proxy has a
    creation-order dependency on some recorded object. *)
Definition proxy_waits_for_database (ds : list Declaration) : Prop :=
  forall p t o, (p, t, o) ∈ proxies ds ->
    exists c, Some c ∈ dependencies_of p ds.

(** The four secret-read actions of the proxy role. *)
Definition secret_read_actions : list string := [
  "secretsmanager:GetResourcePolicy";
  "secretsmanager:GetSecretValue";
  "secretsmanager:DescribeSecret";
  "secretsmanager:ListSecretVersionIds" ].

(** [ServerlessLaravelProps] read as the [ServerlessApiProps] it extends. *)
Definition inherited (props : ServerlessLaravelProps.t) : ServerlessApiProps.t := {|
  ServerlessApiProps.handler := ServerlessLaravelProps.handler props;
  ServerlessApiProps.lambdaCodePath := ServerlessLaravelProps.lambdaCodePath props;
  ServerlessApiProps.brefLayerVersion := ServerlessLaravelProps.brefLayerVersion props;
  ServerlessApiProps.vpc := ServerlessLaravelProps.vpc props;
  ServerlessApiProps.databaseConfig := ServerlessLaravelProps.databaseConfig props;
  ServerlessApiProps.rdsProxy := ServerlessLaravelProps.rdsProxy props
|}.

Definition with_lambdaCodePath (p : string) (props : ServerlessApiProps.t)
  : ServerlessApiProps.t := {|
  ServerlessApiProps.handler := ServerlessApiProps.handler props;
  ServerlessApiProps.lambdaCodePath := Some p;
  ServerlessApiProps.brefLayerVersion := ServerlessApiProps.brefLayerVersion props;
  ServerlessApiProps.vpc := ServerlessApiProps.vpc props;
  ServerlessApiProps.databaseConfig := ServerlessApiProps.databaseConfig props;
  ServerlessApiProps.rdsProxy := ServerlessApiProps.rdsProxy props
|}.

(** The specialization as the specification words it: [ServerlessApi] on the
    same options, [lambdaCodePath] set to [laravelPath]. *)
Definition ServerlessLaravel_as_renaming (path_join : string -> string -> string)
    (dirname : string) (scope : cdk.Construct) (id : string)
    (props : ServerlessLaravelProps.t) : Synth ServerlessApi.t :=
  ServerlessApi.constructor path_join dirname scope id
    (with_lambdaCodePath (ServerlessLaravelProps.laravelPath props) (inherited props)).

(** The grant of line 112 for a proxy. *)
Definition connect_statement (rdsProxy : rds.IDatabaseProxy) : iam.PolicyStatement.t := {|
  iam.PolicyStatement.actions := [ "rds-db:connect" ];
  iam.PolicyStatement.resources := [ rds.dbProxyArn rdsProxy ]
|}.

(** Replace [databaseConfig.masterUserPasswordSecret], when there is a
    [databaseConfig], and nothing else. *)
Definition with_masterUserPasswordSecret (s : option secretsmanager.ISecret)
    (props : ServerlessApiProps.t) : ServerlessApiProps.t := {|
  ServerlessApiProps.handler := ServerlessApiProps.handler props;
  ServerlessApiProps.lambdaCodePath := ServerlessApiProps.lambdaCodePath props;
  ServerlessApiProps.brefLayerVersion := ServerlessApiProps.brefLayerVersion props;
  ServerlessApiProps.vpc := ServerlessApiProps.vpc props;
  ServerlessApiProps.databaseConfig :=
    match ServerlessApiProps.databaseConfig props with
    | Some dc => Some {|
        DatabaseConfig.writerEndpoint := DatabaseConfig.writerEndpoint dc;
        DatabaseConfig.readerEndpoint := DatabaseConfig.readerEndpoint dc;
        DatabaseConfig.masterUserName := DatabaseConfig.masterUserName dc;
        DatabaseConfig.masterUserPasswordSecret := s
      |}
    | None => None
    end;
  ServerlessApiProps.rdsProxy := ServerlessApiProps.rdsProxy props
|}.

(** ** Sample inputs *)

Definition sample_stack : cdk.Construct := {| cdk.stackName := "Stack"; cdk.path := "Stack" |}.

(** [{ vpc, rdsProxy, singleInstanceOnly }], everything else omitted. *)
Definition sample_database (rdsProxy singleInstanceOnly : option bool) : DatabaseProps.t := {|
  DatabaseProps.engine := None;
  DatabaseProps.masterUserName := None;
  DatabaseProps.vpc := ec2.VpcRef "Stack/Vpc";
  DatabaseProps.instanceType := None;
  DatabaseProps.rdsProxy := rdsProxy;
  DatabaseProps.rdsProxyOptions := None;
  DatabaseProps.singleInstanceOnly := singleInstanceOnly
|}.

(** A stand-in for Node's [path.join] in the sample runs. *)
Definition sample_path_join (a b : string) : string := a +:+ "/" +:+ b.

Definition sample_layer : string :=
  "arn:aws:lambda:ap-northeast-1:209497400698:layer:php-74-fpm:11".

(** [{ writerEndpoint }], everything else omitted. *)
Definition sample_databaseConfig : DatabaseConfig.t := {|
  DatabaseConfig.writerEndpoint := "writer.example";
  DatabaseConfig.readerEndpoint := None;
  DatabaseConfig.masterUserName := None;
  DatabaseConfig.masterUserPasswordSecret := None
|}.

Definition sample_api (handler : option lambda.IFunction)
    (lambdaCodePath : option string) (brefLayerVersion : string)
    (databaseConfig : option DatabaseConfig.t)
    (rdsProxy : option rds.IDatabaseProxy) : ServerlessApiProps.t := {|
  ServerlessApiProps.handler := handler;
  ServerlessApiProps.lambdaCodePath := lambdaCodePath;
  ServerlessApiProps.brefLayerVersion := brefLayerVersion;
  ServerlessApiProps.vpc := None;
  ServerlessApiProps.databaseConfig := databaseConfig;
  ServerlessApiProps.rdsProxy := rdsProxy
|}.

Definition sample_proxy : rds.IDatabaseProxy := {|
  rds.dbProxyName := "Stack-RDSProxy";
  rds.dbProxyArn := cdk.Attribute "Stack/Db/DBCluster/RDSProxy" "dbProxyArn";
  rds.endpoint := cdk.Attribute "Stack/Db/DBCluster/RDSProxy" "endpoint"
|}.

(** The declarations of [{ vpc, rdsProxy: true, singleInstanceOnly: true }]. *)
Definition sample_single_instance_run : list Declaration :=
  declared (DatabaseCluster.constructor sample_stack "Db"
              (sample_database (Some true) (Some true))).

(** A handler of the caller's, with every other option given. *)
Definition sample_api_with_handler : ServerlessApiProps.t :=
  sample_api (Some (lambda.FunctionRef "Stack/Mine")) (Some "/srv/app")
    sample_layer (Some sample_databaseConfig) (Some sample_proxy).

(** The same handler and proxy, the other options omitted or empty. *)
Definition sample_api_with_handler_only : ServerlessApiProps.t :=
  sample_api (Some (lambda.FunctionRef "Stack/Mine")) None EmptyString None
    (Some sample_proxy).

(** [{ handler, laravelPath, rdsProxy }] with every other option given. *)
Definition sample_laravel_with_handler : ServerlessLaravelProps.t := {|
  ServerlessLaravelProps.handler := Some (lambda.FunctionRef "Stack/Mine");
  ServerlessLaravelProps.lambdaCodePath := Some "/srv/app";
  ServerlessLaravelProps.brefLayerVersion := sample_layer;
  ServerlessLaravelProps.vpc := None;
  ServerlessLaravelProps.databaseConfig := Some sample_databaseConfig;
  ServerlessLaravelProps.rdsProxy := Some sample_proxy;
  ServerlessLaravelProps.laravelPath := "/srv/laravel"
|}.

(** The same handler and proxy, another [laravelPath], the rest omitted. *)
Definition sample_laravel_with_handler_elsewhere : ServerlessLaravelProps.t := {|
  ServerlessLaravelProps.handler := Some (lambda.FunctionRef "Stack/Mine");
  ServerlessLaravelProps.lambdaCodePath := None;
  ServerlessLaravelProps.brefLayerVersion := EmptyString;
  ServerlessLaravelProps.vpc := None;
  ServerlessLaravelProps.databaseConfig := None;
  ServerlessLaravelProps.rdsProxy := Some sample_proxy;
  ServerlessLaravelProps.laravelPath := "/srv/other"
|}.

(** [{ vpc, instanceType: new InstanceType('t3.small'), singleInstanceOnly: true }]. *)
Definition sample_small_single_instance : DatabaseProps.t := {|
  DatabaseProps.engine := None;
  DatabaseProps.masterUserName := None;
  DatabaseProps.vpc := ec2.VpcRef "Stack/Vpc";
  DatabaseProps.instanceType := Some (ec2.mkInstanceType "t3.small");
  DatabaseProps.rdsProxy := None;
  DatabaseProps.rdsProxyOptions := None;
  DatabaseProps.singleInstanceOnly := Some true
|}.

(** * Properties *)

(** Case analysis on the two flags [DatabaseCluster] branches on. *)
Ltac by_flags props :=
  destruct props as [engine masterUserName vpc instanceType rdsProxy
                     rdsProxyOptions singleInstanceOnly];
  destruct singleInstanceOnly as [[|]|]; destruct rdsProxy as [[|]|].

(** Evaluate a constructor, leaving the paths built from the scope alone. *)
Ltac run := lazy -[String.append String.eqb]; rewrite ?String.eqb_refl.

(** ** [DatabaseCluster] *)

(** The proxy is declared exactly when [rdsProxy] is the literal [true]. *)
Lemma proxy_count scope id props :
  length (proxies (declared (DatabaseCluster.constructor scope id props))) =
  match DatabaseProps.rdsProxy props with Some true => 1 | _ => 0 end.
Proof. by_flags props; reflexivity. Qed.

(** Every declared proxy uses IAM authentication. *)
Lemma proxy_iamAuth scope id props :
  forallb (fun x => rds.DatabaseProxyOptions.iamAuth x.2)
          (proxies (declared (DatabaseCluster.constructor scope id props))) = true.
Proof. by_flags props; reflexivity. Qed.

(** The object built exposes a proxy exactly when one was declared. *)
Lemma rdsProxy_field scope id props :
  is_Some (DatabaseCluster.rdsProxy (built (DatabaseCluster.constructor scope id props)))
  <-> DatabaseProps.rdsProxy props = Some true.
Proof.
  by_flags props; run; split; intros H; try done; try by inversion H.
  all: by eexists.
Qed.

(** C1 (the code at the failing input): with [rdsProxy] omitted the
    construct declares no proxy and exposes none, although the property is
    documented as enabled by default. *)
Theorem rdsProxy_omitted_no_proxy :
  proxies (declared (DatabaseCluster.constructor sample_stack "Db"
                       (sample_database None None))) = []
  /\ DatabaseCluster.rdsProxy
       (built (DatabaseCluster.constructor sample_stack "Db"
                 (sample_database None None))) = None.
Proof. split; reflexivity. Qed.

(** C2: every configuration declares exactly one database object, a
    standalone instance when [singleInstanceOnly === true] and a cluster
    otherwise, never both and never neither; the object built holds that
    one, and every declared proxy targets a declared database object. *)
Theorem exactly_one_database scope id props :
  let ds := declared (DatabaseCluster.constructor scope id props) in
  let this := built (DatabaseCluster.constructor scope id props) in
  match DatabaseProps.singleInstanceOnly props with
  | Some true =>
      length (standalone_instances ds) = 1 /\ clusters ds = []
      /\ is_Some (DatabaseCluster.dbInstance this)
      /\ DatabaseCluster.dbCluster this = None
  | Some false | None =>
      length (clusters ds) = 1 /\ standalone_instances ds = []
      /\ is_Some (DatabaseCluster.dbCluster this)
      /\ DatabaseCluster.dbInstance this = None
  end
  /\ length (standalone_instances ds) + length (clusters ds) = 1
  /\ forallb (fun x => target_declared x.1.2 ds) (proxies ds) = true.
Proof.
  by_flags props; run; repeat split; eauto.
Qed.

(** C3 (counterexample): for [{ vpc, rdsProxy: true, singleInstanceOnly: true }]
    the proxy of the standalone instance is declared with no dependency at
    all: nothing was recorded in [_runBefore]. *)
Lemma single_instance_proxy_no_dependency :
  (proxies sample_single_instance_run).*1.*1 = ["Stack/Db/DBInstance/RDSProxy"]
  /\ dependencies_of "Stack/Db/DBInstance/RDSProxy" sample_single_instance_run = []
  /\ ~ proxy_waits_for_database sample_single_instance_run.
Proof.
  split; [reflexivity|]. split; [reflexivity|].
  intros H.
  destruct (H "Stack/Db/DBInstance/RDSProxy"
              (rds.fromInstance "Stack/Db/DBInstance")
              {| rds.DatabaseProxyOptions.vpc := ec2.VpcRef "Stack/Vpc";
                 rds.DatabaseProxyOptions.secrets :=
                   [ secretsmanager.SecretRef "Stack/Db/DbMasterSecret" ];
                 rds.DatabaseProxyOptions.iamAuth := true;
                 rds.DatabaseProxyOptions.dbProxyName := "Stack-RDSProxy";
                 rds.DatabaseProxyOptions.securityGroups :=
                   [ ec2.SecurityGroupRef "Stack/Db/DB Secuirty Group" ];
                 rds.DatabaseProxyOptions.role := iam.RoleRef "Stack/Db/RdsProxyRole" |})
    as [c Hc].
  - vm_compute. apply list_elem_of_here.
  - vm_compute in Hc. inversion Hc.
Qed.

(** C3 (amended): a declared proxy depends on exactly the objects recorded
    in [_runBefore]: in the cluster topology the cluster's member
    [CfnDBInstance], found among the cluster's children; in the
    single-instance topology nothing is recorded and the proxy declares no
    dependency. *)
Theorem proxy_dependencies scope id props :
  let ds := declared (DatabaseCluster.constructor scope id props) in
  let this := built (DatabaseCluster.constructor scope id props) in
  match DatabaseCluster.rdsProxy this with
  | Some p =>
      proxy_path p ∈ (proxies ds).*1.*1
      /\ dependencies_of (proxy_path p) ds = DatabaseCluster._runBefore this
      /\ DatabaseCluster._runBefore this =
         match DatabaseProps.singleInstanceOnly props with
         | Some true => []
         | Some false | None =>
             [ Some {| cdk.node_path :=
                         cdk.path (cdk.child (cdk.child scope id) "DBCluster")
                         +:+ "/Instance1";
                       cdk.class := cdk.CfnDBInstance |} ]
         end
  | None => proxies ds = []
  end.
Proof.
  by_flags props; run; repeat split; try apply list_elem_of_here.
Qed.

(** C4: whatever the configuration, exactly one secret is declared, and a
    password the service may generate for it has at most 12 characters,
    none of them punctuation and none a space. *)
Theorem master_password_shape scope id props password :
  let ds := declared (DatabaseCluster.constructor scope id props) in
  existsb (fun s => secretsmanager.may_generate
                      (secretsmanager.SecretProps.generateSecretString s.2) password)
          (secrets ds) = true ->
  length (secrets ds) = 1
  /\ String.length password <= 12
  /\ secretsmanager.all_chars (fun c => negb (secretsmanager.is_punctuation c)) password = true
  /\ secretsmanager.all_chars (fun c => negb (secretsmanager.is_space c)) password = true.
Proof.
  intros ds H. subst ds.
  assert (Hgen : (String.length password =? 12)
                 && secretsmanager.all_chars
                      (fun c => negb (secretsmanager.is_punctuation c)) password
                 && secretsmanager.all_chars
                      (fun c => negb (secretsmanager.is_space c)) password = true).
  { by_flags props;
      lazy -[String.append String.length Nat.eqb andb orb negb
             secretsmanager.all_chars secretsmanager.is_punctuation
             secretsmanager.is_space] in H;
      rewrite orb_false_r in H; exact H. }
  apply andb_true_iff in Hgen as [Hgen Hspace].
  apply andb_true_iff in Hgen as [Hlen Hpunct].
  apply Nat.eqb_eq in Hlen.
  split; [by_flags props; reflexivity|].
  split; [lia|]. split; assumption.
Qed.

Lemma master_password_shape_witness :
  existsb (fun s => secretsmanager.may_generate
                      (secretsmanager.SecretProps.generateSecretString s.2)
                      "k3Jq8ZrT0mWx")
          (secrets (declared (DatabaseCluster.constructor sample_stack "Db"
                                (sample_database (Some true) None)))) = true
  /\ length (secrets (declared (DatabaseCluster.constructor sample_stack "Db"
                                  (sample_database (Some true) None)))) = 1
  /\ String.length "k3Jq8ZrT0mWx" <= 12
  /\ secretsmanager.all_chars
       (fun c => negb (secretsmanager.is_punctuation c)) "k3Jq8ZrT0mWx" = true
  /\ secretsmanager.all_chars
       (fun c => negb (secretsmanager.is_space c)) "k3Jq8ZrT0mWx" = true.
Proof.
  split; [reflexivity|].
  apply (master_password_shape sample_stack "Db" (sample_database (Some true) None)
           "k3Jq8ZrT0mWx").
  reflexivity.
Defined.

(** C6: when a proxy is declared, one role is declared, trusted by the
    service principal [rds.amazonaws.com] alone; it is granted one statement,
    the four secret-read actions on the identifier of the one generated
    secret and on nothing else, no wildcard; and it is the role of the
    proxy. *)
Theorem proxy_role_least_privilege scope id props :
  let ds := declared (DatabaseCluster.constructor scope id props) in
  proxies ds <> [] ->
  exists role secret sprops,
    roles ds = [ (role, {| iam.RoleProps.assumedBy :=
                             iam.ServicePrincipal "rds.amazonaws.com" |}) ]
    /\ secrets ds = [ (secret, sprops) ]
    /\ statements_of (iam.RoleRef role) ds =
       [ {| iam.PolicyStatement.actions := secret_read_actions;
            iam.PolicyStatement.resources :=
              [ secretsmanager.secretArn (secretsmanager.SecretRef secret) ] |} ]
    /\ secretsmanager.secretArn (secretsmanager.SecretRef secret) <> cdk.Literal "*"
    /\ (proxies ds).*2 <> []
    /\ Forall (fun o => rds.DatabaseProxyOptions.role o = iam.RoleRef role
                        /\ rds.DatabaseProxyOptions.secrets o
                           = [ secretsmanager.SecretRef secret ])
              (proxies ds).*2.
Proof.
  intros ds H. subst ds.
  by_flags props; try (exfalso; apply H; reflexivity).
  all: do 3 eexists; run.
  all: split; [reflexivity|]; split; [reflexivity|]; split; [reflexivity|].
  all: split; [discriminate|]; split; [discriminate|].
  all: by repeat constructor.
Qed.

Lemma proxy_role_least_privilege_witness :
  proxies (declared (DatabaseCluster.constructor sample_stack "Db"
                       (sample_database (Some true) None))) <> []
  /\ exists role secret sprops,
       roles (declared (DatabaseCluster.constructor sample_stack "Db"
                          (sample_database (Some true) None)))
       = [ (role, {| iam.RoleProps.assumedBy :=
                       iam.ServicePrincipal "rds.amazonaws.com" |}) ]
       /\ secrets (declared (DatabaseCluster.constructor sample_stack "Db"
                               (sample_database (Some true) None)))
          = [ (secret, sprops) ]
       /\ statements_of (iam.RoleRef role)
            (declared (DatabaseCluster.constructor sample_stack "Db"
                         (sample_database (Some true) None)))
          = [ {| iam.PolicyStatement.actions := secret_read_actions;
                 iam.PolicyStatement.resources :=
                   [ secretsmanager.secretArn (secretsmanager.SecretRef secret) ] |} ].
Proof.
  split; [vm_compute; discriminate|].
  destruct (proxy_role_least_privilege sample_stack "Db"
              (sample_database (Some true) None))
    as (role & secret & sprops & Hrole & Hsecret & Hstmt & _).
  - vm_compute; discriminate.
  - exists role, secret, sprops. auto.
Defined.

(** C8 (the code at the failing input): for [{ vpc, singleInstanceOnly: true }]
    the standalone instance is declared with [instanceType] undefined, while
    for [{ vpc }] the cluster is declared with the default [t3.medium], the
    class [db.t3.medium]. *)
Theorem single_instance_without_default_instanceType :
  map (fun x => rds.DatabaseInstanceProps.instanceType x.2)
      (standalone_instances
         (declared (DatabaseCluster.constructor sample_stack "Db"
                      (sample_database None (Some true))))) = [ None ]
  /\ map (fun x => rds.databaseInstanceType
                     (rds.InstanceProps.instanceType
                        (rds.DatabaseClusterProps.instanceProps x.2)))
         (clusters
            (declared (DatabaseCluster.constructor sample_stack "Db"
                         (sample_database None None)))) = [ "db.t3.medium" ].
Proof. split; reflexivity. Qed.

(** The sizing each branch passes on, for every configuration: the cluster
    applies the default, the standalone instance passes the option as is. *)
Lemma instanceType_passed scope id props :
  let ds := declared (DatabaseCluster.constructor scope id props) in
  map (fun x => rds.InstanceProps.instanceType
                  (rds.DatabaseClusterProps.instanceProps x.2)) (clusters ds)
  = match DatabaseProps.singleInstanceOnly props with
    | Some true => []
    | _ => [ DatabaseProps.instanceType props ?? ec2.mkInstanceType "t3.medium" ]
    end
  /\ map (fun x => rds.DatabaseInstanceProps.instanceType x.2) (standalone_instances ds)
     = match DatabaseProps.singleInstanceOnly props with
       | Some true => [ DatabaseProps.instanceType props ]
       | _ => []
       end.
Proof. by_flags props; split; reflexivity. Qed.

(** ** [ServerlessApi] and [ServerlessLaravel] *)

(** C5: when the construct creates its own function, that function is the
    only one declared; with a database configuration its [DB_WRITER] is the
    writer endpoint and its [DB_READER] the reader endpoint, or the writer
    endpoint when no reader endpoint is given; without a database
    configuration [DB_WRITER] and [DB_READER] are the empty string and
    [DB_USER] is [admin]. *)
Theorem environment_fallbacks path_join dirname scope id props :
  ServerlessApiProps.handler props = None ->
  exists p fprops,
    functions (declared (ServerlessApi.constructor path_join dirname scope id props))
    = [ (p, fprops) ]
    /\ let env := lambda.FunctionProps.environment fprops in
       match ServerlessApiProps.databaseConfig props with
       | Some dc =>
           env !! "DB_WRITER" = Some (DatabaseConfig.writerEndpoint dc)
           /\ match DatabaseConfig.readerEndpoint dc with
              | None => env !! "DB_READER" = Some (DatabaseConfig.writerEndpoint dc)
              | Some r => env !! "DB_READER" = Some r
              end
       | None =>
           env !! "DB_WRITER" = Some EmptyString
           /\ env !! "DB_READER" = Some EmptyString
           /\ env !! "DB_USER" = Some "admin"
       end.
Proof.
  destruct props as [handler code layer vpc databaseConfig rdsProxy].
  cbn [ServerlessApiProps.handler ServerlessApiProps.databaseConfig].
  intros ->.
  destruct vpc, rdsProxy, databaseConfig as [[w [r|] u s]|];
    do 2 eexists; (split; [reflexivity|]);
    cbn [DatabaseConfig.writerEndpoint DatabaseConfig.readerEndpoint];
    repeat split; reflexivity.
Qed.

Lemma environment_fallbacks_witness :
  ServerlessApiProps.handler
    (sample_api None None sample_layer (Some sample_databaseConfig) None) = None
  /\ exists p fprops,
       functions (declared (ServerlessApi.constructor sample_path_join "/lib"
                              sample_stack "Api"
                              (sample_api None None sample_layer
                                 (Some sample_databaseConfig) None)))
       = [ (p, fprops) ]
       /\ lambda.FunctionProps.environment fprops !! "DB_READER" = Some "writer.example".
Proof.
  split; [reflexivity|].
  destruct (environment_fallbacks sample_path_join "/lib" sample_stack "Api"
              (sample_api None None sample_layer (Some sample_databaseConfig) None))
    as (p & fprops & Hfun & _ & Hreader).
  - reflexivity.
  - exists p, fprops. split; [exact Hfun | exact Hreader].
Defined.

(** C7: constructing [ServerlessLaravel] is constructing [ServerlessApi] in
    the same scope under the same id with [lambdaCodePath] set to
    [laravelPath] and the other options unchanged: the same object and the same
    declarations, from any state of the app. *)
Theorem ServerlessLaravel_is_renaming path_join dirname scope id props :
  ServerlessLaravel.constructor path_join dirname scope id props
  = ServerlessLaravel_as_renaming path_join dirname scope id props
  /\ synth (ServerlessLaravel.constructor path_join dirname scope id props)
     = synth (ServerlessApi.constructor path_join dirname scope id
                (with_lambdaCodePath (ServerlessLaravelProps.laravelPath props)
                   (inherited props))).
Proof. split; reflexivity. Qed.

(** C9: with a handler supplied, no function is declared, and two
    configurations that agree on the handler, [vpc] and [rdsProxy] build the
    same object and declare the same things, whatever their
    [lambdaCodePath], [brefLayerVersion] and [databaseConfig]; the
    [rds-db:connect] statement goes to the supplied handler exactly when an
    [rdsProxy] is given. *)
Theorem supplied_handler_frame path_join dirname scope id props props' h :
  ServerlessApiProps.handler props = Some h ->
  ServerlessApiProps.handler props' = Some h ->
  ServerlessApiProps.vpc props = ServerlessApiProps.vpc props' ->
  ServerlessApiProps.rdsProxy props = ServerlessApiProps.rdsProxy props' ->
  let out := synth (ServerlessApi.constructor path_join dirname scope id props) in
  out = synth (ServerlessApi.constructor path_join dirname scope id props')
  /\ ServerlessApi.handler out.1 = h
  /\ functions out.2 = []
  /\ role_statements_of h out.2
     = match ServerlessApiProps.rdsProxy props with
       | Some rdsProxy => [ connect_statement rdsProxy ]
       | None => []
       end.
Proof.
  destruct props as [handler code layer vpc databaseConfig rdsProxy].
  destruct props' as [handler' code' layer' vpc' databaseConfig' rdsProxy'].
  cbn [ServerlessApiProps.handler ServerlessApiProps.vpc ServerlessApiProps.rdsProxy].
  intros -> -> <- <-. destruct h as [q].
  destruct vpc, rdsProxy; run; repeat split.
Qed.

Lemma supplied_handler_frame_witness :
  synth (ServerlessApi.constructor sample_path_join "/lib" sample_stack "Api"
           sample_api_with_handler)
  = synth (ServerlessApi.constructor sample_path_join "/lib" sample_stack "Api"
             sample_api_with_handler_only)
  /\ functions (synth (ServerlessApi.constructor sample_path_join "/lib" sample_stack
                         "Api" sample_api_with_handler)).2 = []
  /\ role_statements_of (lambda.FunctionRef "Stack/Mine")
       (synth (ServerlessApi.constructor sample_path_join "/lib" sample_stack "Api"
                 sample_api_with_handler)).2
     = [ connect_statement sample_proxy ].
Proof.
  destruct (supplied_handler_frame sample_path_join "/lib" sample_stack "Api"
              sample_api_with_handler sample_api_with_handler_only
              (lambda.FunctionRef "Stack/Mine"))
    as (Hsame & _ & Hnone & Hgrant); try reflexivity.
  split; [exact Hsame | split; [exact Hnone | exact Hgrant]].
Defined.

(** The environment does not read the secret of the configuration. *)
Lemma environment_ignores_secret w r u s s' :
  ServerlessApi.environment
    (Some {| DatabaseConfig.writerEndpoint := w; DatabaseConfig.readerEndpoint := r;
             DatabaseConfig.masterUserName := u;
             DatabaseConfig.masterUserPasswordSecret := s |})
  = ServerlessApi.environment
      (Some {| DatabaseConfig.writerEndpoint := w; DatabaseConfig.readerEndpoint := r;
               DatabaseConfig.masterUserName := u;
               DatabaseConfig.masterUserPasswordSecret := s' |}).
Proof. reflexivity. Qed.

(** C10: changing [databaseConfig.masterUserPasswordSecret] and nothing else
    changes neither the object built nor anything declared. *)
Theorem masterUserPasswordSecret_never_read path_join dirname scope id props s :
  synth (ServerlessApi.constructor path_join dirname scope id
           (with_masterUserPasswordSecret s props))
  = synth (ServerlessApi.constructor path_join dirname scope id props).
Proof.
  destruct props as [handler code layer vpc [[w r u s']|] rdsProxy]; [|reflexivity].
  unfold with_masterUserPasswordSecret, synth, ServerlessApi.constructor.
  cbn [ServerlessApiProps.handler ServerlessApiProps.lambdaCodePath
       ServerlessApiProps.brefLayerVersion ServerlessApiProps.vpc
       ServerlessApiProps.databaseConfig ServerlessApiProps.rdsProxy
       DatabaseConfig.writerEndpoint DatabaseConfig.readerEndpoint
       DatabaseConfig.masterUserName].
  rewrite (environment_ignores_secret w r u s s'). reflexivity.
Qed.

(** ** Further properties of [ServerlessApi] *)

Ltac by_api_props props :=
  destruct props as [handler lambdaCodePath brefLayerVersion vpc databaseConfig rdsProxy];
  destruct handler as [[h]|]; destruct vpc as [v|]; destruct rdsProxy as [rdsProxy|].

(** X1: a network of the caller's is used as it is and none is declared;
    without one, exactly one network is declared, under the construct as
    [Vpc], with 3 availability zones and 1 NAT gateway; in both cases it is
    the network of the object built and of the function the construct
    creates. *)
Theorem api_vpc path_join dirname scope id props :
  let out := synth (ServerlessApi.constructor path_join dirname scope id props) in
  match ServerlessApiProps.vpc props with
  | Some v => vpcs out.2 = [] /\ ServerlessApi.vpc out.1 = v
  | None =>
      vpcs out.2 = [ (cdk.path (cdk.child (cdk.child scope id) "Vpc"),
                      {| ec2.VpcProps.maxAzs := 3; ec2.VpcProps.natGateways := 1 |}) ]
      /\ ServerlessApi.vpc out.1
         = ec2.VpcRef (cdk.path (cdk.child (cdk.child scope id) "Vpc"))
  end
  /\ map (fun f => lambda.FunctionProps.vpc f.2) (functions out.2)
     = match ServerlessApiProps.handler props with
       | Some _ => []
       | None => [ ServerlessApi.vpc out.1 ]
       end.
Proof.
  by_api_props props; repeat split; reflexivity.
Qed.

(** X2: every configuration declares exactly one HTTP API, whose default
    integration is the handler of the object built, and exactly one output,
    [EndpointURL], whose value is the URL of that API; the handler is the
    caller's when supplied and the one declared function otherwise. *)
Theorem api_endpoint path_join dirname scope id props :
  let out := synth (ServerlessApi.constructor path_join dirname scope id props) in
  let self := cdk.child scope id in
  apis out.2
  = [ (cdk.path (cdk.child self "apiservice"),
       {| apigateway.HttpApiProps.defaultIntegration :=
            apigateway.mkLambdaProxyIntegration (ServerlessApi.handler out.1) |}) ]
  /\ outputs out.2
     = [ (cdk.path (cdk.child self "EndpointURL"),
          apigateway.url (apigateway.HttpApiRef (cdk.path (cdk.child self "apiservice")))) ]
  /\ match ServerlessApiProps.handler props with
     | Some h => ServerlessApi.handler out.1 = h /\ functions out.2 = []
     | None =>
         (functions out.2).*1 = [ cdk.path (cdk.child self "handler") ]
         /\ ServerlessApi.handler out.1
            = lambda.FunctionRef (cdk.path (cdk.child self "handler"))
     end.
Proof.
  by_api_props props; run; repeat split.
Qed.

(** X3: the only statement ever handed to a function's role is
    [rds-db:connect] on the ARN of the proxy given, handed once to the
    handler of the object built, whether created or supplied; without an
    [rdsProxy] nothing is handed to any role. *)
Theorem api_grants path_join dirname scope id props :
  let out := synth (ServerlessApi.constructor path_join dirname scope id props) in
  grants out.2
  = match ServerlessApiProps.rdsProxy props with
    | Some rdsProxy => [ (ServerlessApi.handler out.1, connect_statement rdsProxy) ]
    | None => []
    end
  /\ role_statements out.2 = [] /\ roles out.2 = [].
Proof.
  by_api_props props; run; repeat split.
Qed.

(** X4: the environment of the function the construct creates has exactly
    the four keys [APP_STORAGE], [DB_WRITER], [DB_READER] and [DB_USER];
    [APP_STORAGE] is [/tmp], and [DB_USER] is the master user name of the
    database configuration when it gives one and [admin] otherwise. *)
Theorem own_function_environment path_join dirname scope id props :
  ServerlessApiProps.handler props = None ->
  exists p fprops,
    functions (declared (ServerlessApi.constructor path_join dirname scope id props))
    = [ (p, fprops) ]
    /\ (forall k, is_Some (lambda.FunctionProps.environment fprops !! k)
                  <-> k ∈ environment_keys)
    /\ lambda.FunctionProps.environment fprops !! "APP_STORAGE" = Some "/tmp"
    /\ lambda.FunctionProps.environment fprops !! "DB_USER"
       = Some (match ServerlessApiProps.databaseConfig props with
               | Some dc =>
                   match DatabaseConfig.masterUserName dc with
                   | Some u => u
                   | None => "admin"
                   end
               | None => "admin"
               end).
Proof.
  destruct props as [handler code layer vpc databaseConfig rdsProxy].
  cbn [ServerlessApiProps.handler ServerlessApiProps.databaseConfig].
  intros ->.
  destruct vpc, rdsProxy; do 2 eexists; (split; [reflexivity|]).
  all: cbn [lambda.FunctionProps.environment]; split.
  all: try (intros k; rewrite <- elem_of_dom; unfold ServerlessApi.environment;
            rewrite dom_list_to_map_L; unfold environment_keys; cbn [fmap list_fmap fst];
            set_solver).
  all: destruct databaseConfig as [[w r [u|] s]|]; split; reflexivity.
Qed.

Lemma own_function_environment_witness :
  ServerlessApiProps.handler
    (sample_api None None sample_layer (Some sample_databaseConfig) None) = None
  /\ exists p fprops,
       functions (declared (ServerlessApi.constructor sample_path_join "/lib"
                              sample_stack "Api"
                              (sample_api None None sample_layer
                                 (Some sample_databaseConfig) None)))
       = [ (p, fprops) ]
       /\ lambda.FunctionProps.environment fprops !! "APP_STORAGE" = Some "/tmp"
       /\ lambda.FunctionProps.environment fprops !! "DB_USER" = Some "admin".
Proof.
  split; [reflexivity|].
  destruct (own_function_environment sample_path_join "/lib" sample_stack "Api"
              (sample_api None None sample_layer (Some sample_databaseConfig) None))
    as (p & fprops & Hfun & _ & Hstorage & Huser).
  - reflexivity.
  - exists p, fprops. split; [exact Hfun | split; [exact Hstorage | exact Huser]].
Defined.

(** X5: the function the construct creates runs the custom runtime with
    handler [public/index.php] and a 120 second timeout, carries exactly one
    layer, the one of [brefLayerVersion], and takes its code from
    [lambdaCodePath] when given and from the bundled
    [../composer/laravel58-bref] next to the library otherwise. *)
Theorem own_function_shape path_join dirname scope id props :
  ServerlessApiProps.handler props = None ->
  exists fprops,
    functions (declared (ServerlessApi.constructor path_join dirname scope id props))
    = [ (cdk.path (cdk.child (cdk.child scope id) "handler"), fprops) ]
    /\ lambda.FunctionProps.runtime fprops = lambda.PROVIDED
    /\ lambda.FunctionProps.handler fprops = "public/index.php"
    /\ lambda.FunctionProps.timeout fprops = cdk.seconds 120
    /\ lambda.FunctionProps.layers fprops
       = [ lambda.fromLayerVersionArn (cdk.child scope id) "BrefPHPLayer"
             (ServerlessApiProps.brefLayerVersion props) ]
    /\ lambda.FunctionProps.code fprops
       = lambda.fromAsset
           match ServerlessApiProps.lambdaCodePath props with
           | Some p => p
           | None => path_join dirname "../composer/laravel58-bref"
           end.
Proof.
  destruct props as [handler code layer vpc databaseConfig rdsProxy].
  cbn [ServerlessApiProps.handler ServerlessApiProps.lambdaCodePath
       ServerlessApiProps.brefLayerVersion].
  intros ->.
  destruct vpc, rdsProxy, code; eexists; (split; [reflexivity|]); repeat split.
Qed.

Lemma own_function_shape_witness :
  ServerlessApiProps.handler (sample_api None None sample_layer None None) = None
  /\ exists fprops,
       functions (declared (ServerlessApi.constructor sample_path_join "/lib"
                              sample_stack "Api"
                              (sample_api None None sample_layer None None)))
       = [ ("Stack/Api/handler", fprops) ]
       /\ lambda.FunctionProps.code fprops
          = lambda.fromAsset "/lib/../composer/laravel58-bref".
Proof.
  split; [reflexivity|].
  destruct (own_function_shape sample_path_join "/lib" sample_stack "Api"
              (sample_api None None sample_layer None None))
    as (fprops & Hfun & _ & _ & _ & _ & Hcode).
  - reflexivity.
  - exists fprops. split; [exact Hfun | exact Hcode].
Defined.

(** ** Further properties of [ServerlessLaravel] *)

(** X6: [ServerlessLaravel] never reads the [lambdaCodePath] its options
    inherit: replacing it changes nothing, and the function it creates always
    takes its code from [laravelPath], never from the bundled default. *)
Theorem laravel_code_path path_join dirname scope id props c :
  let ds := declared (ServerlessLaravel.constructor path_join dirname scope id props) in
  ServerlessLaravel.constructor path_join dirname scope id
    (with_inherited_lambdaCodePath c props)
  = ServerlessLaravel.constructor path_join dirname scope id props
  /\ map (fun f => lambda.FunctionProps.code f.2) (functions ds)
     = match ServerlessLaravelProps.handler props with
       | Some _ => []
       | None => [ lambda.fromAsset (ServerlessLaravelProps.laravelPath props) ]
       end.
Proof.
  split; [reflexivity|].
  destruct props as [handler code layer vpc databaseConfig rdsProxy laravelPath].
  destruct handler as [[h]|], vpc, rdsProxy; reflexivity.
Qed.

(** X7: with a handler supplied, [ServerlessLaravel] declares no function and
    its required [laravelPath] has no effect, no more than
    [brefLayerVersion], [lambdaCodePath] and [databaseConfig]: two
    configurations that agree on the handler, [vpc] and [rdsProxy] build the
    same object and declare the same things. *)
Theorem laravel_supplied_handler path_join dirname scope id props props' h :
  ServerlessLaravelProps.handler props = Some h ->
  ServerlessLaravelProps.handler props' = Some h ->
  ServerlessLaravelProps.vpc props = ServerlessLaravelProps.vpc props' ->
  ServerlessLaravelProps.rdsProxy props = ServerlessLaravelProps.rdsProxy props' ->
  synth (ServerlessLaravel.constructor path_join dirname scope id props)
  = synth (ServerlessLaravel.constructor path_join dirname scope id props')
  /\ functions (declared (ServerlessLaravel.constructor path_join dirname scope id props))
     = [].
Proof.
  destruct props as [handler code layer vpc databaseConfig rdsProxy laravelPath].
  destruct props' as [handler' code' layer' vpc' databaseConfig' rdsProxy' laravelPath'].
  cbn [ServerlessLaravelProps.handler ServerlessLaravelProps.vpc
       ServerlessLaravelProps.rdsProxy].
  intros -> -> <- <-. destruct h as [q].
  destruct vpc, rdsProxy; split; reflexivity.
Qed.

Lemma laravel_supplied_handler_witness :
  synth (ServerlessLaravel.constructor sample_path_join "/lib" sample_stack "App"
           sample_laravel_with_handler)
  = synth (ServerlessLaravel.constructor sample_path_join "/lib" sample_stack "App"
             sample_laravel_with_handler_elsewhere)
  /\ functions (declared (ServerlessLaravel.constructor sample_path_join "/lib"
                            sample_stack "App" sample_laravel_with_handler)) = [].
Proof.
  apply (laravel_supplied_handler sample_path_join "/lib" sample_stack "App"
           sample_laravel_with_handler sample_laravel_with_handler_elsewhere
           (lambda.FunctionRef "Stack/Mine")); reflexivity.
Defined.

(** ** Further properties of [DatabaseCluster] *)

Ltac by_database_props props :=
  destruct props as [engine masterUserName vpc instanceType rdsProxy
                     rdsProxyOptions singleInstanceOnly];
  destruct singleInstanceOnly as [[|]|]; destruct rdsProxy as [[|]|];
  destruct masterUserName as [user|]; destruct instanceType as [type|].

(** X8: the options [engine] and [rdsProxyOptions] are never read: replacing
    them changes neither the object built nor anything declared, and the
    engine declared is MySQL for the standalone instance and Aurora MySQL
    2.08.1 for the cluster, whatever engine is asked for. *)
Theorem engine_and_proxy_options_never_read scope id props e o :
  let ds := declared (DatabaseCluster.constructor scope id props) in
  synth (DatabaseCluster.constructor scope id (with_engine_and_proxy_options e o props))
  = synth (DatabaseCluster.constructor scope id props)
  /\ map (fun x => rds.DatabaseInstanceProps.engine x.2) (standalone_instances ds)
     = match DatabaseProps.singleInstanceOnly props with
       | Some true => [ rds.MYSQL ]
       | Some false | None => []
       end
  /\ map (fun x => rds.DatabaseClusterProps.engine x.2) (clusters ds)
     = match DatabaseProps.singleInstanceOnly props with
       | Some true => []
       | Some false | None => [ rds.auroraMysql rds.VER_2_08_1 ]
       end.
Proof.
  by_flags props; repeat split; reflexivity.
Qed.

(** X9: the master user of the object built is [masterUserName], or [admin]
    when omitted; the one secret declared carries that name under [username]
    in its template and generates its password under [password]; it is the
    [masterPassword] of the object built; and the database object, instance
    or cluster, takes both its master user name and its password from that
    secret. *)
Theorem master_user_credentials scope id props :
  let out := synth (DatabaseCluster.constructor scope id props) in
  let user := match DatabaseProps.masterUserName props with
              | Some u => u
              | None => "admin"
              end in
  let secret :=
    secretsmanager.SecretRef (cdk.path (cdk.child (cdk.child scope id) "DbMasterSecret")) in
  DatabaseCluster.masterUser out.1 = user
  /\ DatabaseCluster.masterPassword out.1 = secret
  /\ map (fun s => (secretsmanager.SecretRef s.1,
                    secretsmanager.SecretStringGenerator.secretStringTemplate
                      (secretsmanager.SecretProps.generateSecretString s.2),
                    secretsmanager.SecretStringGenerator.generateStringKey
                      (secretsmanager.SecretProps.generateSecretString s.2)))
         (secrets out.2)
     = [ (secret, JS.stringify [ ("username", user) ], "password") ]
  /\ database_credentials out.2
     = [ (secretsmanager.secretValueFromJson secret "username",
          secretsmanager.secretValueFromJson secret "password") ].
Proof.
  by_database_props props; repeat split; reflexivity.
Qed.

(** X10: exactly one security group is declared, in the network given, and
    opened once, to itself, on TCP port 3306; the database object, instance
    or cluster, is placed in the network given with exactly that group, and
    so is every proxy. *)
Theorem database_network scope id props :
  let ds := declared (DatabaseCluster.constructor scope id props) in
  let group := cdk.path (cdk.child (cdk.child scope id) "DB Secuirty Group") in
  security_groups ds
  = [ (group, {| ec2.SecurityGroupProps.vpc := DatabaseProps.vpc props |}) ]
  /\ internal_rules ds = [ (ec2.SecurityGroupRef group, ec2.tcp 3306) ]
  /\ database_placement ds
     = [ (DatabaseProps.vpc props, [ ec2.SecurityGroupRef group ]) ]
  /\ Forall (fun x => rds.DatabaseProxyOptions.vpc x.2 = DatabaseProps.vpc props
                      /\ rds.DatabaseProxyOptions.securityGroups x.2
                         = [ ec2.SecurityGroupRef group ])
            (proxies ds).
Proof.
  by_flags props; run; repeat split; repeat constructor.
Qed.

(** X11: a proxy is declared exactly when [rdsProxy] is the literal [true],
    and then exactly one, together with one role and one statement on that
    role; with [false] or with [rdsProxy] omitted there is no proxy, no role,
    no statement and no dependency, and the object built exposes no proxy.
    The proxy the object exposes is the declared one. *)
Theorem proxy_exactly_when_true scope id props :
  let out := synth (DatabaseCluster.constructor scope id props) in
  match DatabaseProps.rdsProxy props with
  | Some true =>
      exists p,
        DatabaseCluster.rdsProxy out.1 = Some p
        /\ (proxies out.2).*1.*1 = [ proxy_path p ]
        /\ rds.dbProxyArn (proxy p) = cdk.Attribute (proxy_path p) "dbProxyArn"
        /\ length (roles out.2) = 1 /\ length (role_statements out.2) = 1
  | Some false | None =>
      DatabaseCluster.rdsProxy out.1 = None
      /\ proxies out.2 = [] /\ roles out.2 = [] /\ role_statements out.2 = []
      /\ dependencies out.2 = []
  end.
Proof.
  by_flags props; try (eexists; run); repeat split.
Qed.

(** X12: an instance type that is given is the one the database object is
    declared with, in the single-instance topology as in the cluster
    topology. *)
Theorem requested_instanceType_applied scope id props type :
  DatabaseProps.instanceType props = Some type ->
  database_sizing (declared (DatabaseCluster.constructor scope id props))
  = [ Some type ].
Proof.
  destruct props as [engine masterUserName vpc instanceType rdsProxy
                     rdsProxyOptions singleInstanceOnly].
  cbn [DatabaseProps.instanceType]. intros ->.
  destruct singleInstanceOnly as [[|]|], rdsProxy as [[|]|]; reflexivity.
Qed.

Lemma requested_instanceType_applied_witness :
  DatabaseProps.instanceType sample_small_single_instance
  = Some (ec2.mkInstanceType "t3.small")
  /\ database_sizing (declared (DatabaseCluster.constructor sample_stack "Db"
                                  sample_small_single_instance))
     = [ Some (ec2.mkInstanceType "t3.small") ].
Proof.
  split; [reflexivity|].
  apply (requested_instanceType_applied sample_stack "Db" sample_small_single_instance
           (ec2.mkInstanceType "t3.small")).
  reflexivity.
Defined.

(** X13: no configuration protects the database: a standalone instance is
    declared with deletion protection off, a cluster with removal policy
    [DESTROY]; and a cluster is always declared with exactly one member
    instance. *)
Theorem database_is_disposable scope id props :
  let ds := declared (DatabaseCluster.constructor scope id props) in
  map (fun x => rds.DatabaseInstanceProps.deletionProtection x.2)
      (standalone_instances ds)
  = match DatabaseProps.singleInstanceOnly props with
    | Some true => [ false ]
    | Some false | None => []
    end
  /\ map (fun x => (rds.DatabaseClusterProps.instances x.2,
                    rds.DatabaseClusterProps.removalPolicy x.2))
         (clusters ds)
     = match DatabaseProps.singleInstanceOnly props with
       | Some true => []
       | Some false | None => [ (1, cdk.DESTROY) ]
       end.
Proof.
  by_flags props; split; reflexivity.
Qed.

(** ** Names and paths *)

Lemma append_assoc (a b c : string) : (a +:+ b) +:+ c = a +:+ (b +:+ c).
Proof.
  induction a as [|x a IH]; [reflexivity|].
  change (String x ((a +:+ b) +:+ c) = String x (a +:+ (b +:+ c))). by f_equal.
Qed.

Lemma append_differs (self a b : string) : a <> b -> self +:+ a <> self +:+ b.
Proof. intros Hab H. by apply Hab, (inj (String.append self)). Qed.

(** Paths that share a prefix and differ after it are pairwise distinct. *)
Ltac distinct_paths :=
  repeat (apply NoDup_cons_2;
          [ rewrite ?not_elem_of_cons; repeat split;
            try apply not_elem_of_nil; apply append_differs; discriminate | ]);
  apply NoDup_nil_2.

Ltac under_self :=
  repeat (apply Forall_cons_2; [ eexists; f_equal; reflexivity | ]);
  apply Forall_nil_2.

Ltac by_flags_of props := destruct props as [? ? ? ? [[|]|] ? [[|]|]].

(** X14: whatever the scope, the id and the configuration, the constructs
    [DatabaseCluster] creates have pairwise distinct paths, all below the
    path of the [DatabaseCluster] itself. *)
Theorem database_paths scope id props :
  let ds := declared (DatabaseCluster.constructor scope id props) in
  let self := cdk.path (cdk.child scope id) in
  NoDup (created_paths ds)
  /\ Forall (fun p => exists rest, p = self +:+ "/" +:+ rest) (created_paths ds).
Proof.
  destruct scope as [sn sp].
  by_flags props; lazy -[String.append]; generalize (sp +:+ "/" +:+ id); intros self.
  all: rewrite ?append_assoc; split; [distinct_paths | under_self].
Qed.

(** X15: whatever the scope, the id and the configuration, the constructs
    [ServerlessApi] creates and the layer it references have pairwise
    distinct paths, all below the path of the [ServerlessApi] itself. *)
Theorem api_paths path_join dirname scope id props :
  let ds := declared (ServerlessApi.constructor path_join dirname scope id props) in
  let self := cdk.path (cdk.child scope id) in
  NoDup (created_paths ds ++ layer_paths ds)
  /\ Forall (fun p => exists rest, p = self +:+ "/" +:+ rest)
            (created_paths ds ++ layer_paths ds).
Proof.
  destruct scope as [sn sp].
  by_api_props props; lazy -[String.append]; generalize (sp +:+ "/" +:+ id); intros self.
  all: rewrite ?append_assoc; split; [distinct_paths | under_self].
Qed.

(** X16: the name of the secret and the name of the proxy are built from the
    stack name alone: two [DatabaseCluster]s of one stack, whatever their ids
    and configurations, declare two secrets of the same name
    [<stack>-DbMasterSecret], and every proxy they declare is named
    [<stack>-RDSProxy]. *)
Theorem physical_names_ignore_id scope id1 id2 props1 props2 :
  let ds := declared (two_databases scope id1 id2 props1 props2) in
  map (fun s => secretsmanager.SecretProps.secretName s.2) (secrets ds)
  = [ cdk.stackName scope +:+ "-DbMasterSecret";
      cdk.stackName scope +:+ "-DbMasterSecret" ]
  /\ map (fun x => rds.DatabaseProxyOptions.dbProxyName x.2) (proxies ds)
     = repeat (cdk.stackName scope +:+ "-RDSProxy")
         ((match DatabaseProps.rdsProxy props1 with Some true => 1 | _ => 0 end)
          + (match DatabaseProps.rdsProxy props2 with Some true => 1 | _ => 0 end)).
Proof.
  by_flags_of props1; by_flags_of props2; split; reflexivity.
Qed.

(** X17: when the proxy a [DatabaseCluster] exposes is passed on to a
    [ServerlessApi] as [rdsProxy], the handler's role is handed
    [rds-db:connect] on the ARN of each proxy the database declared: one
    statement when [DatabaseCluster] was given [rdsProxy: true], none when it
    was given [false] or nothing. *)
Theorem database_proxy_grant path_join dirname scope dbId apiId dbProps apiProps :
  let out := synth (database_then_api path_join dirname scope dbId apiId
                      dbProps apiProps) in
  grants out.2
  = map (fun x => (ServerlessApi.handler out.1.2,
                   {| iam.PolicyStatement.actions := [ "rds-db:connect" ];
                      iam.PolicyStatement.resources :=
                        [ cdk.Attribute x.1.1 "dbProxyArn" ] |}))
        (proxies out.2)
  /\ length (grants out.2)
     = match DatabaseProps.rdsProxy dbProps with Some true => 1 | _ => 0 end.
Proof.
  by_api_props apiProps; by_flags_of dbProps; split; reflexivity.
Qed.
